(** * Layered configuration of the Elasticsearch output: pkg/esoutput/config.go

    The file embeds [NewConfig], [Config.Apply], [ParseArg] and
    [GetConsolidatedConfig] of package [esoutput] and proves the properties of
    the layered resolution (defaults, JSON document, environment, inline
    argument).

    The package calls three libraries that are not part of the repository:
    [encoding/json] ([json.Unmarshal]), Helm's [strvals] ([strvals.Parse]) and
    k6's [lib/types] ([NullDuration.UnmarshalText]).  They enter the
    development as the operations of the class [GoLibs]; every theorem holds
    for all implementations of that class.  Section [Reference instance]
    gives one executable implementation, used to run the code on concrete
    inputs. *)

From Stdlib Require Import ZArith Strings.String Strings.Ascii Strings.Byte List Bool.
From stdpp Require Import base option gmap strings.

Set Warnings "-register-all".
Local Open Scope string_scope.
Local Open Scope Z_scope.

(** ** Data model *)

(** Go byte slices.  A [json.RawMessage] is a byte slice that may be [nil]:
    [None] is the nil slice, [Some nil] the empty slice that is not nil. *)
Abbreviation bytes := (list byte).
Abbreviation RawMessage := (option (list byte)).

(** The conversion [[]byte(s)] of a Go string. *)
Definition bytes_of (s : string) : bytes := list_byte_of_string s.

(** Package [gopkg.in/guregu/null.v3]: a string with a validity flag. *)
Module null.
Record String := NewString { String_ : string; Valid : bool }.

(** [null.StringFrom(s)] is [NewString(s, true)]. *)
Definition StringFrom (s : string) : String := NewString s true.

(** The zero value of the struct. *)
Definition zero : String := NewString "" false.
End null.

(** Package [go.k6.io/k6/lib/types]: a duration (an int64 count of
    nanoseconds) with a validity flag. *)
Module types.
Record NullDuration := NewNullDuration { Duration : Z; Valid : bool }.

(** [types.NullDurationFrom(d)] is [NullDuration{Duration(d), true}]. *)
Definition NullDurationFrom (d : Z) : NullDuration := NewNullDuration d true.

Definition zero : NullDuration := NewNullDuration 0 false.
End types.

(** Package [time]. *)
Module time.
Definition Nanosecond : Z := 1.
Definition Microsecond : Z := 1000 * Nanosecond.
Definition Millisecond : Z := 1000 * Microsecond.
Definition Second : Z := 1000 * Millisecond.
Definition Minute : Z := 60 * Second.
Definition Hour : Z := 60 * Minute.
End time.

(** config.go, line 32. *)
Definition defaultFlushPeriod : Z := time.Second.

(** config.go, lines 35-44. *)
Record Config := mkConfig {
  Url : null.String;
  CloudID : null.String;
  CACert : null.String;
  User : null.String;
  Password : null.String;
  FlushPeriod : types.NullDuration
}.

(** Assignments to one field of a [Config] value. *)
Definition set_Url (c : Config) (v : null.String) : Config :=
  mkConfig v (CloudID c) (CACert c) (User c) (Password c) (FlushPeriod c).
Definition set_CloudID (c : Config) (v : null.String) : Config :=
  mkConfig (Url c) v (CACert c) (User c) (Password c) (FlushPeriod c).
Definition set_CACert (c : Config) (v : null.String) : Config :=
  mkConfig (Url c) (CloudID c) v (User c) (Password c) (FlushPeriod c).
Definition set_User (c : Config) (v : null.String) : Config :=
  mkConfig (Url c) (CloudID c) (CACert c) v (Password c) (FlushPeriod c).
Definition set_Password (c : Config) (v : null.String) : Config :=
  mkConfig (Url c) (CloudID c) (CACert c) (User c) v (FlushPeriod c).
Definition set_FlushPeriod (c : Config) (v : types.NullDuration) : Config :=
  mkConfig (Url c) (CloudID c) (CACert c) (User c) (Password c) v.

(** The zero value [Config{}] (also [var c Config]). *)
Definition zeroConfig : Config :=
  mkConfig null.zero null.zero null.zero null.zero null.zero types.zero.

(** The dynamic values [interface{}] that [strvals.Parse] stores in its result
    map: strings, integers, booleans, nil, nested maps and lists. *)
Inductive value :=
| VString (s : string)
| VInt (n : Z)
| VBool (b : bool)
| VNil
| VMap (m : list (string * value))
| VList (l : list value).

(** The type assertion [x.(string)] on the result of a map index expression:
    it fails on a missing key (the nil interface) and on every value that is
    not a string. *)
Definition as_string (x : option value) : option string :=
  match x with
  | Some (VString s) => Some s
  | _ => None
  end.

(** ** The libraries the package calls *)

(** A Go call that returns [(T, error)] or mutates its receiver and returns
    [error] is a function to a pair whose second component is [None] for the
    nil error. *)
Class GoLibs := {
  error : Type;
(** [json.Unmarshal(data, &v)] for [v] of type [Config]: the value left in
      [v] and the error. *)
  json_Unmarshal : bytes -> Config -> Config * option error;
(** [strvals.Parse(s)]. *)
  strvals_Parse : string -> gmap string value * option error;
(** [d.UnmarshalText(data)] for [d] of type [*types.NullDuration]: the value
      left in [d] and the error. *)
  UnmarshalText : types.NullDuration -> bytes -> types.NullDuration * option error
}.

(** ** The package *)

(** config.go, lines 46-55. *)
Definition NewConfig : Config :=
  {| Url := null.StringFrom "http://localhost:9200";
     CloudID := null.NewString "" false;
     CACert := null.NewString "" false;
     User := null.NewString "" false;
     Password := null.NewString "" false;
     FlushPeriod := types.NullDurationFrom defaultFlushPeriod |}.

(** config.go, lines 59-84.  [base] is a value receiver: the assignments
    change the method's copy, which is returned. *)
Definition Apply (base applied : Config) : Config :=
  let base :=
    if null.Valid (Url applied) then set_Url base (Url applied) else base in
  let base :=
    if null.Valid (CloudID applied) then set_CloudID base (CloudID applied) else base in
  let base :=
    if null.Valid (CACert applied) then set_CACert base (CACert applied) else base in
  let base :=
    if null.Valid (User applied) then set_User base (User applied) else base in
  let base :=
    if null.Valid (Password applied) then set_Password base (Password applied) else base in
  let base :=
    if types.Valid (FlushPeriod applied)
    then set_FlushPeriod base (FlushPeriod applied) else base in
  base.

(** The keys that [ParseArg] reads from the parsed argument. *)
Definition recognizedKeys : list string :=
  ["url"; "cloud-id"; "caCertFile"; "user"; "password"; "flushPeriod"].

(** The effect of one string variable of the environment on its field. *)
Definition envOverride (old : null.String) (var : option string) : null.String :=
  match var with
  | Some v => null.NewString v true
  | None => old
  end.

Section Package.
Context `{Libs : GoLibs}.

(** config.go, lines 87-121. *)
Definition ParseArg (arg : string) : Config * option error :=
  let c := zeroConfig in
  let (params, err) := strvals_Parse arg in
  match err with
  | Some err => (c, Some err)
  | None =>
    let c :=
      match as_string (params !! "url") with
      | Some v => set_Url c (null.StringFrom v)
      | None => c
      end in
    let c :=
      match as_string (params !! "cloud-id") with
      | Some v => set_CloudID c (null.StringFrom v)
      | None => c
      end in
    let c :=
      match as_string (params !! "caCertFile") with
      | Some v => set_CACert c (null.StringFrom v)
      | None => c
      end in
    let c :=
      match as_string (params !! "user") with
      | Some v => set_User c (null.StringFrom v)
      | None => c
      end in
    let c :=
      match as_string (params !! "password") with
      | Some v => set_Password c (null.StringFrom v)
      | None => c
      end in
    match as_string (params !! "flushPeriod") with
    | Some v =>
      let (d, err) := UnmarshalText (FlushPeriod c) (bytes_of v) in
      let c := set_FlushPeriod c d in
      match err with
      | Some err => (c, Some err)
      | None => (c, None)
      end
    | None => (c, None)
    end
  end.

(** config.go, lines 125-172. *)
Definition GetConsolidatedConfig
    (jsonRawConf : RawMessage) (env : gmap string string) (arg : string)
    : Config * option error :=
  let result := NewConfig in
  let afterJSON : Config * option error :=
    match jsonRawConf with
    | Some data =>
      let jsonConf := zeroConfig in
      let (jsonConf, err) := json_Unmarshal data jsonConf in
      match err with
      | Some err => (result, Some err)
      | None => (Apply result jsonConf, None)
      end
    | None => (result, None)
    end in
  match afterJSON with
  | (result, Some err) => (result, Some err)
  | (result, None) =>
    let afterFlush : Config * option error :=
      match env !! "K6_ELASTICSEARCH_FLUSH_PERIOD" with
      | Some flushPeriod =>
        let (d, err) := UnmarshalText (FlushPeriod result) (bytes_of flushPeriod) in
        (set_FlushPeriod result d, err)
      | None => (result, None)
      end in
    match afterFlush with
    | (result, Some err) => (result, Some err)
    | (result, None) =>
      let result :=
        match env !! "K6_ELASTICSEARCH_URL" with
        | Some url => set_Url result (null.StringFrom url)
        | None => result
        end in
      let result :=
        match env !! "K6_ELASTICSEARCH_CLOUD_ID" with
        | Some cloudId => set_CloudID result (null.StringFrom cloudId)
        | None => result
        end in
      let result :=
        match env !! "K6_ELASTICSEARCH_CA_CERT_FILE" with
        | Some ca => set_CACert result (null.StringFrom ca)
        | None => result
        end in
      let result :=
        match env !! "K6_ELASTICSEARCH_USER" with
        | Some user => set_User result (null.StringFrom user)
        | None => result
        end in
      let result :=
        match env !! "K6_ELASTICSEARCH_PASSWORD" with
        | Some password => set_Password result (null.StringFrom password)
        | None => result
        end in
      if String.eqb arg ""
      then (result, None)
      else
        let (argConf, err) := ParseArg arg in
        match err with
        | Some err => (result, Some err)
        | None => (Apply result argConf, None)
        end
    end
  end.

(** *** The layers of [GetConsolidatedConfig]

    The three blocks of the function body, each as a function of the
    accumulator [result] it starts from, and the early return that links
    them.  [GetConsolidatedConfig_layers] below proves that the function is
    their sequence. *)

(** Lines 127-133. *)
Definition documentLayer (result : Config) (jsonRawConf : RawMessage)
    : Config * option error :=
  match jsonRawConf with
  | Some data =>
    match json_Unmarshal data zeroConfig with
    | (_, Some err) => (result, Some err)
    | (jsonConf, None) => (Apply result jsonConf, None)
    end
  | None => (result, None)
  end.

(** Lines 142-160: the five string variables. *)
Definition environmentStrings (result : Config) (env : gmap string string) : Config :=
  let result :=
    match env !! "K6_ELASTICSEARCH_URL" with
    | Some url => set_Url result (null.StringFrom url)
    | None => result
    end in
  let result :=
    match env !! "K6_ELASTICSEARCH_CLOUD_ID" with
    | Some cloudId => set_CloudID result (null.StringFrom cloudId)
    | None => result
    end in
  let result :=
    match env !! "K6_ELASTICSEARCH_CA_CERT_FILE" with
    | Some ca => set_CACert result (null.StringFrom ca)
    | None => result
    end in
  let result :=
    match env !! "K6_ELASTICSEARCH_USER" with
    | Some user => set_User result (null.StringFrom user)
    | None => result
    end in
  match env !! "K6_ELASTICSEARCH_PASSWORD" with
  | Some password => set_Password result (null.StringFrom password)
  | None => result
  end.

(** Lines 136-140: the flush period variable. *)
Definition environmentFlushPeriod (result : Config) (env : gmap string string)
    : Config * option error :=
  match env !! "K6_ELASTICSEARCH_FLUSH_PERIOD" with
  | Some flushPeriod =>
    let (d, err) := UnmarshalText (FlushPeriod result) (bytes_of flushPeriod) in
    (set_FlushPeriod result d, err)
  | None => (result, None)
  end.

(** Lines 136-160. *)
Definition environmentLayer (result : Config) (env : gmap string string)
    : Config * option error :=
  match environmentFlushPeriod result env with
  | (result, Some err) => (result, Some err)
  | (result, None) => (environmentStrings result env, None)
  end.

(** Lines 162-169. *)
Definition inlineLayer (result : Config) (arg : string) : Config * option error :=
  if String.eqb arg ""
  then (result, None)
  else
    match ParseArg arg with
    | (_, Some err) => (result, Some err)
    | (argConf, None) => (Apply result argConf, None)
    end.

(** [if err != nil { return result, err }] between two layers. *)
Definition andThen (r : Config * option error) (next : Config -> Config * option error)
    : Config * option error :=
  match r with
  | (result, Some err) => (result, Some err)
  | (result, None) => next result
  end.

(** The document layer decodes [jsonConf]; there is nothing to decode from
    the nil document. *)
Definition documentDecodes (jsonRawConf : RawMessage) (jsonConf : Config) : Prop :=
  match jsonRawConf with
  | Some data => json_Unmarshal data zeroConfig = (jsonConf, None)
  | None => jsonConf = zeroConfig
  end.

(** The inline layer parses [argConf]; there is nothing to parse from the
    empty argument. *)
Definition argumentParses (arg : string) (argConf : Config) : Prop :=
  if String.eqb arg "" then argConf = zeroConfig else ParseArg arg = (argConf, None).

(** The flush period variable is absent from [env], or the library reads
    its text into the flush period of [acc] without an error. *)
Definition flushPeriodReads (acc : Config) (env : gmap string string) : Prop :=
  match env !! "K6_ELASTICSEARCH_FLUSH_PERIOD" with
  | Some text => snd (UnmarshalText (FlushPeriod acc) (bytes_of text)) = None
  | None => True
  end.

(** The accumulator after the environment layer has run without an error. *)
Definition environmentResult (acc : Config) (env : gmap string string) : Config :=
  {| Url := envOverride (Url acc) (env !! "K6_ELASTICSEARCH_URL");
     CloudID := envOverride (CloudID acc) (env !! "K6_ELASTICSEARCH_CLOUD_ID");
     CACert := envOverride (CACert acc) (env !! "K6_ELASTICSEARCH_CA_CERT_FILE");
     User := envOverride (User acc) (env !! "K6_ELASTICSEARCH_USER");
     Password := envOverride (Password acc) (env !! "K6_ELASTICSEARCH_PASSWORD");
     FlushPeriod :=
       match env !! "K6_ELASTICSEARCH_FLUSH_PERIOD" with
       | Some text => fst (UnmarshalText (FlushPeriod acc) (bytes_of text))
       | None => FlushPeriod acc
       end |}.

End Package.

Notation "r >>= f" := (andThen r f) (at level 50, left associativity, only parsing).

(** ** Reference instance

    An executable implementation of [GoLibs], written after the Go libraries
    on the part of their input languages that the examples of this file use:
    - duration texts of [time.ParseDuration] with integer coefficients
      ([NullDuration.UnmarshalText] reads the empty text as the zero value);
    - [strvals] arguments with flat keys: [k=v,k=v], backslash escapes, and
      the conversion of values to booleans and integers;
    - JSON documents that are one object whose members are strings or
      [null], or the document [null].
    Texts outside these parts (fractions and the day unit [d] in a duration,
    nested keys and lists in an argument, numbers, booleans, arrays, nested
    objects and unicode escapes in a document) are reported as errors by this
    instance.  Texts that versions of the libraries read differently (a
    value [null] or [0] in an argument, a number without a unit as a
    duration) occur in no example. *)
Module Ref.

Definition is_digit (c : ascii) : bool :=
  (48 <=? nat_of_ascii c)%nat && (nat_of_ascii c <=? 57)%nat.

Definition digit_val (c : ascii) : Z := Z.of_nat (nat_of_ascii c) - 48.

(** *** Durations: [time.ParseDuration] *)

(** [leadingInt]: the digits at the head of [s], added to [x]. *)
Fixpoint leadingInt (s : string) (x : Z) : option (Z * string) :=
  match s with
  | String c r =>
    if is_digit c then
      if 2 ^ 63 / 10 <? x then None
      else
        let x := x * 10 + digit_val c in
        if 2 ^ 63 <? x then None else leadingInt r x
    else Some (x, s)
  | EmptyString => Some (x, s)
  end.

(** The digits after the period: whether one of them is not zero, and the
    rest of the text. *)
Fixpoint leadingFraction (s : string) : bool * string :=
  match s with
  | String c r =>
    if is_digit c then
      let (nz, rest) := leadingFraction r in (negb (Ascii.eqb c "0") || nz, rest)
    else (false, s)
  | EmptyString => (false, s)
  end.

(** The unit: everything up to the next digit or period. *)
Fixpoint leadingUnit (s : string) : string * string :=
  match s with
  | String c r =>
    if is_digit c || Ascii.eqb c "." then (EmptyString, s)
    else let (u, rest) := leadingUnit r in (String c u, rest)
  | EmptyString => (EmptyString, s)
  end.

Definition micro_sign : string := String (ascii_of_nat 194) (String (ascii_of_nat 181) "s").
Definition greek_mu : string := String (ascii_of_nat 206) (String (ascii_of_nat 188) "s").

Definition unitMap (u : string) : option Z :=
  if String.eqb u "ns" then Some time.Nanosecond
  else if String.eqb u "us" then Some time.Microsecond
  else if String.eqb u micro_sign then Some time.Microsecond
  else if String.eqb u greek_mu then Some time.Microsecond
  else if String.eqb u "ms" then Some time.Millisecond
  else if String.eqb u "s" then Some time.Second
  else if String.eqb u "m" then Some time.Minute
  else if String.eqb u "h" then Some time.Hour
  else None.

(** One pass of the loop [for s != ""]: a coefficient and a unit. *)
Definition segment (s : string) : option (Z * string) :=
  match s with
  | EmptyString => None
  | String c _ =>
    if negb (is_digit c || Ascii.eqb c ".") then None
    else
      match leadingInt s 0 with
      | None => None
      | Some (v, s1) =>
        let pre := negb (String.length s1 =? String.length s)%nat in
        let '(post, frac, s2) :=
          match s1 with
          | String "." r =>
            let (nz, rest) := leadingFraction r in
            (negb (String.length rest =? String.length r)%nat, nz, rest)
          | _ => (false, false, s1)
          end in
        if negb pre && negb post then None
        else
          let (u, s3) := leadingUnit s2 in
          match u with
          | EmptyString => None
          | _ =>
            match unitMap u with
            | None => None
            | Some unit =>
              if 2 ^ 63 / unit <? v then None
              else if frac then None
              else Some (v * unit, s3)
            end
          end
      end
  end.

Fixpoint segments (fuel : nat) (s : string) (d : Z) : option Z :=
  match fuel with
  | O => None
  | S fuel =>
    match s with
    | EmptyString => Some d
    | _ =>
      match segment s with
      | None => None
      | Some (v, rest) =>
        let d := d + v in
        if 2 ^ 63 <? d then None else segments fuel rest d
      end
    end
  end.

Definition ParseDuration (s : string) : option Z :=
  let (neg, s) :=
    match s with
    | String "-" r => (true, r)
    | String "+" r => (false, r)
    | _ => (false, s)
    end in
  if String.eqb s "0" then Some 0
  else if String.eqb s "" then None
  else
    match segments (S (String.length s)) s 0 with
    | None => None
    | Some d =>
      if neg then Some (- d)
      else if 2 ^ 63 - 1 <? d then None else Some d
    end.

(** The method [UnmarshalText] of [NullDuration] in [lib/types] of k6. *)
Definition UnmarshalText (d : types.NullDuration) (data : bytes)
    : types.NullDuration * option string :=
  match data with
  | [] => (types.zero, None)
  | _ =>
    match ParseDuration (string_of_list_byte data) with
    | None => (d, Some "time: invalid duration")
    | Some v => (types.NewNullDuration v true, None)
    end
  end.

(** *** Inline arguments: [strvals.Parse] *)

(** [runesUntil]: the text before the first character of [stop] that is
    not escaped by a backslash, that character ([None] at the end of the
    text) and the text after it. *)
Fixpoint runesUntil (stop : ascii -> bool) (s : string)
    : string * option ascii * string :=
  match s with
  | EmptyString => (EmptyString, None, EmptyString)
  | String c r =>
    if stop c then (EmptyString, Some c, r)
    else if Ascii.eqb c "\" then
      match r with
      | EmptyString => (EmptyString, None, EmptyString)
      | String next r' =>
        let '(v, last, rest) := runesUntil stop r' in (String next v, last, rest)
      end
    else
      let '(v, last, rest) := runesUntil stop r in (String c v, last, rest)
  end.

Definition lower (c : ascii) : ascii :=
  let n := nat_of_ascii c in
  if (65 <=? n)%nat && (n <=? 90)%nat then ascii_of_nat (n + 32) else c.

Fixpoint lower_string (s : string) : string :=
  match s with
  | EmptyString => EmptyString
  | String c r => String (lower c) (lower_string r)
  end.

Fixpoint digits (s : string) (x : Z) : option Z :=
  match s with
  | EmptyString => Some x
  | String c r => if is_digit c then digits r (x * 10 + digit_val c) else None
  end.

(** [strconv.ParseInt(s, 10, 64)]. *)
Definition ParseInt (s : string) : option Z :=
  let (neg, ds) :=
    match s with
    | String "-" r => (true, r)
    | String "+" r => (false, r)
    | _ => (false, s)
    end in
  match ds with
  | EmptyString => None
  | _ =>
    match digits ds 0 with
    | None => None
    | Some n =>
      let n := if neg then - n else n in
      if (- 2 ^ 63 <=? n) && (n <? 2 ^ 63) then Some n else None
    end
  end.

(** [typedVal]: the value of a key, converted when it reads as a boolean or
    as an integer without a leading zero. *)
Definition typedVal (v : string) : value :=
  if String.eqb (lower_string v) "true" then VBool true
  else if String.eqb (lower_string v) "false" then VBool false
  else
    match v with
    | EmptyString => VString v
    | String "0" _ => VString v
    | _ =>
      match ParseInt v with
      | Some n => VInt n
      | None => VString v
      end
    end.

(** [set]: an empty key stores nothing. *)
Definition set (data : gmap string value) (k : string) (v : value) : gmap string value :=
  match k with
  | EmptyString => data
  | _ => <[k := v]> data
  end.

Inductive outcome :=
| Next (data : gmap string value) (rest : string)
| Finished (data : gmap string value)
| Failed (data : gmap string value) (msg : string).

Definition key_stop (c : ascii) : bool :=
  Ascii.eqb c "=" || Ascii.eqb c "[" || Ascii.eqb c "," || Ascii.eqb c ".".

(** [parser.key]: one [key=value] of the argument. *)
Definition key (data : gmap string value) (s : string) : outcome :=
  let '(k, last, rest) := runesUntil key_stop s in
  match last with
  | None =>
    match k with
    | EmptyString => Finished data
    | _ => Failed data "key has no value"
    end
  | Some "="%char =>
    match rest with
    | EmptyString => Finished (set data k (VString ""))
    | String "{" _ => Failed data "list value"
    | _ =>
      let '(v, last, rest) := runesUntil (Ascii.eqb ",") rest in
      let data := set data k (typedVal v) in
      match last with
      | None => Finished data
      | Some _ => Next data rest
      end
    end
  | Some ","%char => Failed (set data k (VString "")) "key has no value (cannot end with ,)"
  | Some _ => Failed data "nested key"
  end.

(** [parser.parse]: keys until the end of the text or the first error. *)
Fixpoint parse (fuel : nat) (data : gmap string value) (s : string)
    : gmap string value * option string :=
  match fuel with
  | O => (data, Some "out of fuel")
  | S fuel =>
    match key data s with
    | Next data rest => parse fuel data rest
    | Finished data => (data, None)
    | Failed data msg => (data, Some msg)
    end
  end.

Definition Parse (s : string) : gmap string value * option string :=
  parse (S (String.length s)) ∅ s.

(** *** Documents: [json.Unmarshal] into a [Config] *)

Definition dquote : ascii := ascii_of_nat 34.

Definition is_space (c : ascii) : bool :=
  match nat_of_ascii c with
  | 32%nat | 9%nat | 10%nat | 13%nat => true
  | _ => false
  end.

Fixpoint skip_space (s : string) : string :=
  match s with
  | String c r => if is_space c then skip_space r else s
  | EmptyString => s
  end.

Definition unescape (c : ascii) : option ascii :=
  if Ascii.eqb c dquote then Some dquote
  else if Ascii.eqb c "\" then Some "\"%char
  else if Ascii.eqb c "/" then Some "/"%char
  else if Ascii.eqb c "b" then Some (ascii_of_nat 8)
  else if Ascii.eqb c "f" then Some (ascii_of_nat 12)
  else if Ascii.eqb c "n" then Some (ascii_of_nat 10)
  else if Ascii.eqb c "r" then Some (ascii_of_nat 13)
  else if Ascii.eqb c "t" then Some (ascii_of_nat 9)
  else None.

(** A string literal after its opening quote: its content and the text
    after the closing quote. *)
Fixpoint string_body (s : string) : option (string * string) :=
  match s with
  | EmptyString => None
  | String c r =>
    if Ascii.eqb c dquote then Some (EmptyString, r)
    else if Ascii.eqb c "\" then
      match r with
      | EmptyString => None
      | String e r' =>
        match unescape e, string_body r' with
        | Some x, Some (v, rest) => Some (String x v, rest)
        | _, _ => None
        end
      end
    else if (nat_of_ascii c <? 32)%nat then None
    else
      match string_body r with
      | Some (v, rest) => Some (String c v, rest)
      | None => None
      end
  end.

Inductive jvalue := JString (s : string) | JNull.

Definition value_at (s : string) : option (jvalue * string) :=
  match s with
  | String "n" (String "u" (String "l" (String "l" rest))) => Some (JNull, rest)
  | String c r =>
    if Ascii.eqb c dquote then
      match string_body r with
      | Some (v, rest) => Some (JString v, rest)
      | None => None
      end
    else None
  | EmptyString => None
  end.

(** The members of an object, from the opening quote of a key to the
    closing brace. *)
Fixpoint members (fuel : nat) (s : string) : option (list (string * jvalue) * string) :=
  match fuel with
  | O => None
  | S fuel =>
    match s with
    | String c r =>
      if Ascii.eqb c dquote then
        match string_body r with
        | Some (k, r1) =>
          match skip_space r1 with
          | String ":" r2 =>
            match value_at (skip_space r2) with
            | Some (v, r3) =>
              match skip_space r3 with
              | String "," r4 =>
                match members fuel (skip_space r4) with
                | Some (ms, rest) => Some ((k, v) :: ms, rest)
                | None => None
                end
              | String "}" r4 => Some ([(k, v)], r4)
              | _ => None
              end
            | None => None
            end
          | _ => None
          end
        | None => None
        end
      else None
    | EmptyString => None
    end
  end.

(** The whole document: [None] when it is not of the supported form. *)
Definition document (s : string) : option (list (string * jvalue)) :=
  match skip_space s with
  | String "{" r =>
    match skip_space r with
    | String "}" rest =>
      match skip_space rest with
      | EmptyString => Some []
      | _ => None
      end
    | r1 =>
      match members (String.length r1) r1 with
      | Some (ms, rest) =>
        match skip_space rest with
        | EmptyString => Some ms
        | _ => None
        end
      | None => None
      end
    end
  | String "n" (String "u" (String "l" (String "l" rest))) =>
    match skip_space rest with
    | EmptyString => Some []
    | _ => None
    end
  | _ => None
  end.

(** The fields of [Config] by their [json] tags: an exact match of the key
    first, then a match that ignores the case of letters. *)
Inductive field := FUrl | FCloudID | FCACert | FUser | FPassword | FFlushPeriod.

Definition tags : list (string * field) :=
  [("url", FUrl); ("cloud-id", FCloudID); ("caCertFile", FCACert);
   ("user", FUser); ("password", FPassword); ("flushPeriod", FFlushPeriod)].

Definition findField (k : string) : option field :=
  match List.find (fun t => String.eqb (fst t) k) tags with
  | Some t => Some (snd t)
  | None =>
    match List.find (fun t => String.eqb (lower_string (fst t)) (lower_string k)) tags with
    | Some t => Some (snd t)
    | None => None
    end
  end.

(** [UnmarshalJSON] of [null.String]. *)
Definition unmarshalString (old : null.String) (v : jvalue) : null.String :=
  match v with
  | JString s => null.NewString s true
  | JNull => null.NewString (null.String_ old) false
  end.

(** [UnmarshalJSON] of [types.NullDuration]. *)
Definition unmarshalDuration (old : types.NullDuration) (v : jvalue)
    : types.NullDuration * option string :=
  match v with
  | JNull => (types.NewNullDuration (types.Duration old) false, None)
  | JString s =>
    match ParseDuration s with
    | Some d => (types.NewNullDuration d true, None)
    | None => (old, Some "time: invalid duration")
    end
  end.

Definition member (c : Config) (m : string * jvalue) : Config * option string :=
  let (k, v) := m in
  match findField k with
  | Some FUrl => (set_Url c (unmarshalString (Url c) v), None)
  | Some FCloudID => (set_CloudID c (unmarshalString (CloudID c) v), None)
  | Some FCACert => (set_CACert c (unmarshalString (CACert c) v), None)
  | Some FUser => (set_User c (unmarshalString (User c) v), None)
  | Some FPassword => (set_Password c (unmarshalString (Password c) v), None)
  | Some FFlushPeriod =>
    let (d, err) := unmarshalDuration (FlushPeriod c) v in (set_FlushPeriod c d, err)
  | None => (c, None)
  end.

Fixpoint decode (ms : list (string * jvalue)) (c : Config) : Config * option string :=
  match ms with
  | [] => (c, None)
  | m :: ms =>
    match member c m with
    | (c, Some err) => (c, Some err)
    | (c, None) => decode ms c
    end
  end.

Definition Unmarshal (data : bytes) (v : Config) : Config * option string :=
  match document (string_of_list_byte data) with
  | None => (v, Some "json: invalid document")
  | Some ms => decode ms v
  end.

(** A string literal of a JSON text. *)
Definition quoted (s : string) : string :=
  String dquote s ++ String dquote EmptyString.

End Ref.

Definition RefLibs : GoLibs :=
  {| error := string;
     json_Unmarshal := Ref.Unmarshal;
     strvals_Parse := Ref.Parse;
     UnmarshalText := Ref.UnmarshalText |}.

(** ** Example inputs *)

(** The document and the environment of the resolution example. *)
Definition exampleDocument : string :=
  "{" ++ Ref.quoted "url" ++ ":" ++ Ref.quoted "http://doc:9200" ++ "}".

Definition exampleEnv : gmap string string :=
  {[ "K6_ELASTICSEARCH_USER" := "envuser" ]}.

Definition truncatedDocument : string := "{" ++ Ref.quoted "url" ++ ":".

Definition flushDocument : string :=
  "{" ++ Ref.quoted "flushPeriod" ++ ":" ++ Ref.quoted "30s" ++ "}".

Definition envTwoMinutes : gmap string string :=
  {[ "K6_ELASTICSEARCH_FLUSH_PERIOD" := "2m"; "K6_ELASTICSEARCH_URL" := "http://env:9200" ]}.

Definition envBadFlushPeriod : gmap string string :=
  {[ "K6_ELASTICSEARCH_FLUSH_PERIOD" := "notaduration";
     "K6_ELASTICSEARCH_URL" := "http://env:9200";
     "K6_ELASTICSEARCH_PASSWORD" := "envsecret" ]}.

(** A configuration without a valid field that still carries values. *)
Definition staleConfig : Config :=
  {| Url := null.NewString "http://stale:1" false;
     CloudID := null.NewString "id" false;
     CACert := null.NewString "/tmp/ca.pem" false;
     User := null.NewString "u" false;
     Password := null.NewString "p" false;
     FlushPeriod := types.NewNullDuration 42 false |}.

(** The variables that [GetConsolidatedConfig] reads from the environment,
    in the order of the reads. *)
Definition envVariables : list string :=
  ["K6_ELASTICSEARCH_FLUSH_PERIOD"; "K6_ELASTICSEARCH_URL"; "K6_ELASTICSEARCH_CLOUD_ID";
   "K6_ELASTICSEARCH_CA_CERT_FILE"; "K6_ELASTICSEARCH_USER"; "K6_ELASTICSEARCH_PASSWORD"].

(** A configuration with six valid fields. *)
Definition fullConfig : Config :=
  {| Url := null.NewString "https://es:9243" true;
     CloudID := null.NewString "deployment:abc" true;
     CACert := null.NewString "/etc/ca.pem" true;
     User := null.NewString "elastic" true;
     Password := null.NewString "" true;
     FlushPeriod := types.NewNullDuration 0 true |}.

(** [exampleEnv] and variables that the package does not read. *)
Definition envWithOthers : gmap string string :=
  {[ "K6_ELASTICSEARCH_USER" := "envuser";
     "K6_ELASTICSEARCH_INDEX" := "k6";
     "HOME" := "/root" ]}.

(** ** Properties of the merge *)

Section Merge.

(** The six projections of [Apply], one per field. *)
Lemma Apply_fields (base applied : Config) :
  Apply base applied =
  {| Url := if null.Valid (Url applied) then Url applied else Url base;
     CloudID := if null.Valid (CloudID applied) then CloudID applied else CloudID base;
     CACert := if null.Valid (CACert applied) then CACert applied else CACert base;
     User := if null.Valid (User applied) then User applied else User base;
     Password := if null.Valid (Password applied) then Password applied else Password base;
     FlushPeriod :=
       if types.Valid (FlushPeriod applied) then FlushPeriod applied else FlushPeriod base |}.
Proof.
  destruct base, applied; unfold Apply; simpl.
  repeat match goal with
         | |- context [if ?b then _ else _] => destruct b; simpl
         end; reflexivity.
Qed.

(** C1.  [Apply] decides each of the six fields on its own: a field of the
    result is the field of [applied], value and validity flag, when that
    field is valid, and the field of [base] otherwise, whatever value the
    invalid field of [applied] carries. *)
Theorem Apply_field_independent (base applied : Config) :
  Url (Apply base applied)
    = (if null.Valid (Url applied) then Url applied else Url base) /\
  CloudID (Apply base applied)
    = (if null.Valid (CloudID applied) then CloudID applied else CloudID base) /\
  CACert (Apply base applied)
    = (if null.Valid (CACert applied) then CACert applied else CACert base) /\
  User (Apply base applied)
    = (if null.Valid (User applied) then User applied else User base) /\
  Password (Apply base applied)
    = (if null.Valid (Password applied) then Password applied else Password base) /\
  FlushPeriod (Apply base applied)
    = (if types.Valid (FlushPeriod applied) then FlushPeriod applied else FlushPeriod base).
Proof. rewrite Apply_fields; simpl; repeat split. Qed.

(** C3.  [NewConfig] is a constant: the endpoint is the valid string
    ["http://localhost:9200"], the flush period is the valid duration of one
    second (10^9 nanoseconds), and the four other fields are invalid. *)
Theorem NewConfig_defaults :
  NewConfig =
  {| Url := null.NewString "http://localhost:9200" true;
     CloudID := null.NewString "" false;
     CACert := null.NewString "" false;
     User := null.NewString "" false;
     Password := null.NewString "" false;
     FlushPeriod := types.NewNullDuration 1000000000 true |}.
Proof. reflexivity. Qed.

(** C7.  A configuration whose six fields are all invalid is a right
    identity of [Apply]: merging it onto [base] returns [base]. *)
Theorem Apply_all_absent (base applied : Config) :
  null.Valid (Url applied) = false ->
  null.Valid (CloudID applied) = false ->
  null.Valid (CACert applied) = false ->
  null.Valid (User applied) = false ->
  null.Valid (Password applied) = false ->
  types.Valid (FlushPeriod applied) = false ->
  Apply base applied = base.
Proof.
  intros H1 H2 H3 H4 H5 H6.
  rewrite Apply_fields, H1, H2, H3, H4, H5, H6.
  destruct base; reflexivity.
Qed.

Lemma Apply_all_absent_witness : Apply NewConfig staleConfig = NewConfig.
Proof. apply (Apply_all_absent NewConfig staleConfig); reflexivity. Defined.

Lemma Apply_zeroConfig (base : Config) : Apply base zeroConfig = base.
Proof. rewrite Apply_fields; destruct base; reflexivity. Qed.

End Merge.

(** ** Properties of the resolution *)

Section Resolution.
Context `{Libs : GoLibs}.

(** [GetConsolidatedConfig] runs the document layer on the defaults, then
    the environment layer, then the inline layer, and stops at the first
    error. *)
Lemma GetConsolidatedConfig_layers jsonRawConf env arg :
  GetConsolidatedConfig jsonRawConf env arg =
  documentLayer NewConfig jsonRawConf
    >>= (fun result => environmentLayer result env)
    >>= (fun result => inlineLayer result arg).
Proof.
  unfold GetConsolidatedConfig, documentLayer, environmentLayer,
    environmentFlushPeriod, environmentStrings, inlineLayer, andThen.
  destruct jsonRawConf as [data|]; simpl.
  - destruct (json_Unmarshal data zeroConfig) as [jsonConf [err|]]; simpl; [reflexivity|].
    destruct (env !! "K6_ELASTICSEARCH_FLUSH_PERIOD") as [text|]; simpl.
    + destruct (UnmarshalText _ _) as [d [err|]]; simpl; [reflexivity|].
      destruct (String.eqb arg ""); [reflexivity|].
      destruct (ParseArg arg) as [argConf [err|]]; reflexivity.
    + destruct (String.eqb arg ""); [reflexivity|].
      destruct (ParseArg arg) as [argConf [err|]]; reflexivity.
  - destruct (env !! "K6_ELASTICSEARCH_FLUSH_PERIOD") as [text|]; simpl.
    + destruct (UnmarshalText _ _) as [d [err|]]; simpl; [reflexivity|].
      destruct (String.eqb arg ""); [reflexivity|].
      destruct (ParseArg arg) as [argConf [err|]]; reflexivity.
    + destruct (String.eqb arg ""); [reflexivity|].
      destruct (ParseArg arg) as [argConf [err|]]; reflexivity.
Qed.

Lemma environmentLayer_reads (acc : Config) (env : gmap string string) :
  flushPeriodReads acc env ->
  environmentLayer acc env = (environmentResult acc env, None).
Proof.
  unfold flushPeriodReads, environmentLayer, environmentFlushPeriod,
    environmentStrings, environmentResult, envOverride.
  destruct (env !! "K6_ELASTICSEARCH_FLUSH_PERIOD") as [text|].
  - destruct (UnmarshalText _ _) as [d err]; simpl; intros ->.
    destruct acc; simpl.
    repeat match goal with
           | |- context [match ?o with Some _ => _ | None => _ end] => destruct o; simpl
           end; reflexivity.
  - intros _. destruct acc; simpl.
    repeat match goal with
           | |- context [match ?o with Some _ => _ | None => _ end] => destruct o; simpl
           end; reflexivity.
Qed.

Lemma environmentLayer_fails (acc : Config) (env : gmap string string) text d err :
  env !! "K6_ELASTICSEARCH_FLUSH_PERIOD" = Some text ->
  UnmarshalText (FlushPeriod acc) (bytes_of text) = (d, Some err) ->
  environmentLayer acc env = (set_FlushPeriod acc d, Some err).
Proof.
  intros Henv Htext.
  unfold environmentLayer, environmentFlushPeriod. rewrite Henv, Htext. reflexivity.
Qed.

(** C4.  A document that is not nil and that [json.Unmarshal] rejects
    makes [GetConsolidatedConfig] return the decoder's error with the
    default configuration, whatever the environment and the inline argument
    are: the later layers have no effect on the result. *)
Theorem malformed_document_returns_defaults
    (data : bytes) (partial : Config) (err : error)
    (env : gmap string string) (arg : string) :
  json_Unmarshal data zeroConfig = (partial, Some err) ->
  GetConsolidatedConfig (Some data) env arg = (NewConfig, Some err).
Proof.
  intros Hdoc. rewrite GetConsolidatedConfig_layers.
  unfold documentLayer. rewrite Hdoc. reflexivity.
Qed.

(** C8 (amended).  With the nil document, [GetConsolidatedConfig] runs the
    environment layer on the defaults and then the inline layer: the
    document layer is skipped and raises no error.  With the nil document,
    the empty environment and the empty argument the result is the default
    configuration without an error. *)
Theorem nil_document_skipped (env : gmap string string) (arg : string) :
  GetConsolidatedConfig None env arg
    = (environmentLayer NewConfig env >>= (fun result => inlineLayer result arg)) /\
  GetConsolidatedConfig None ∅ "" = (NewConfig, None).
Proof.
  split.
  - rewrite GetConsolidatedConfig_layers. reflexivity.
  - reflexivity.
Qed.

Lemma GetConsolidatedConfig_document_only jsonRawConf :
  GetConsolidatedConfig jsonRawConf ∅ "" = documentLayer NewConfig jsonRawConf.
Proof.
  rewrite GetConsolidatedConfig_layers.
  destruct (documentLayer NewConfig jsonRawConf) as [acc [err|]]; [reflexivity|].
  simpl. destruct acc; reflexivity.
Qed.

Lemma GetConsolidatedConfig_no_argument jsonRawConf env :
  GetConsolidatedConfig jsonRawConf env "" =
  documentLayer NewConfig jsonRawConf >>= (fun result => environmentLayer result env).
Proof.
  rewrite GetConsolidatedConfig_layers.
  destruct (documentLayer NewConfig jsonRawConf) as [acc [err|]]; [reflexivity|].
  simpl. destruct (environmentLayer acc env) as [acc' [err|]]; reflexivity.
Qed.

Lemma documentLayer_decodes jsonRawConf jsonConf :
  documentDecodes jsonRawConf jsonConf ->
  documentLayer NewConfig jsonRawConf = (Apply NewConfig jsonConf, None).
Proof.
  unfold documentDecodes, documentLayer.
  destruct jsonRawConf as [data|]; [intros ->|intros ->]; reflexivity.
Qed.

Lemma inlineLayer_parses result arg argConf :
  argumentParses arg argConf ->
  inlineLayer result arg = (Apply result argConf, None).
Proof.
  unfold argumentParses, inlineLayer.
  destruct (String.eqb arg ""); intros ->; [|reflexivity].
  now rewrite Apply_zeroConfig.
Qed.

(** C2.  The four layers apply in the order defaults, document,
    environment, inline argument, and a later layer wins.  When the document
    decodes to [jsonConf], the flush period variable is readable and the
    argument parses to [argConf], every field of the result is the field of
    [argConf] if that is valid, else the value of its environment variable
    if that is set, else the field of [jsonConf] if that is valid, else the
    default.  In particular, when the libraries decode the document
    [{"url":"http://doc:9200"}] to a configuration with that url only and
    parse the argument [password=secret] to that one pair, the resolution
    with the environment [K6_ELASTICSEARCH_USER=envuser] returns no error
    and url [http://doc:9200], user [envuser], password [secret], a flush
    period of one second, and no cloud id and no CA certificate. *)
Theorem layers_precedence :
  json_Unmarshal (bytes_of exampleDocument) zeroConfig
    = (set_Url zeroConfig (null.StringFrom "http://doc:9200"), None) ->
  strvals_Parse "password=secret" = ({[ "password" := VString "secret" ]}, None) ->
  (forall jsonRawConf env arg jsonConf argConf,
     documentDecodes jsonRawConf jsonConf ->
     flushPeriodReads (Apply NewConfig jsonConf) env ->
     argumentParses arg argConf ->
     GetConsolidatedConfig jsonRawConf env arg =
     ({| Url :=
           if null.Valid (Url argConf) then Url argConf
           else envOverride
                  (if null.Valid (Url jsonConf) then Url jsonConf else Url NewConfig)
                  (env !! "K6_ELASTICSEARCH_URL");
         CloudID :=
           if null.Valid (CloudID argConf) then CloudID argConf
           else envOverride
                  (if null.Valid (CloudID jsonConf) then CloudID jsonConf
                   else CloudID NewConfig)
                  (env !! "K6_ELASTICSEARCH_CLOUD_ID");
         CACert :=
           if null.Valid (CACert argConf) then CACert argConf
           else envOverride
                  (if null.Valid (CACert jsonConf) then CACert jsonConf
                   else CACert NewConfig)
                  (env !! "K6_ELASTICSEARCH_CA_CERT_FILE");
         User :=
           if null.Valid (User argConf) then User argConf
           else envOverride
                  (if null.Valid (User jsonConf) then User jsonConf else User NewConfig)
                  (env !! "K6_ELASTICSEARCH_USER");
         Password :=
           if null.Valid (Password argConf) then Password argConf
           else envOverride
                  (if null.Valid (Password jsonConf) then Password jsonConf
                   else Password NewConfig)
                  (env !! "K6_ELASTICSEARCH_PASSWORD");
         FlushPeriod :=
           if types.Valid (FlushPeriod argConf) then FlushPeriod argConf
           else
             let accumulated :=
               if types.Valid (FlushPeriod jsonConf) then FlushPeriod jsonConf
               else FlushPeriod NewConfig in
             match env !! "K6_ELASTICSEARCH_FLUSH_PERIOD" with
             | Some text => fst (UnmarshalText accumulated (bytes_of text))
             | None => accumulated
             end |}, None)) /\
  GetConsolidatedConfig (Some (bytes_of exampleDocument)) exampleEnv "password=secret" =
  ({| Url := null.NewString "http://doc:9200" true;
      CloudID := null.NewString "" false;
      CACert := null.NewString "" false;
      User := null.NewString "envuser" true;
      Password := null.NewString "secret" true;
      FlushPeriod := types.NewNullDuration (1 * time.Second) true |}, None).
Proof.
  intros Hdoc Harg.
  assert (Hgen : forall jsonRawConf env arg jsonConf argConf,
             documentDecodes jsonRawConf jsonConf ->
             flushPeriodReads (Apply NewConfig jsonConf) env ->
             argumentParses arg argConf ->
             GetConsolidatedConfig jsonRawConf env arg =
             (Apply (environmentResult (Apply NewConfig jsonConf) env) argConf, None)).
  { intros j env arg jsonConf argConf Hj Henv Ha.
    rewrite GetConsolidatedConfig_layers, (documentLayer_decodes _ _ Hj). simpl.
    rewrite (environmentLayer_reads _ _ Henv). simpl.
    apply inlineLayer_parses, Ha. }
  split.
  - intros j env arg jsonConf argConf Hj Henv Ha.
    rewrite (Hgen _ _ _ _ _ Hj Henv Ha).
    rewrite (Apply_fields _ argConf). unfold environmentResult.
    rewrite (Apply_fields NewConfig jsonConf). reflexivity.
  - rewrite (Hgen (Some (bytes_of exampleDocument)) exampleEnv "password=secret"
               (set_Url zeroConfig (null.StringFrom "http://doc:9200"))
               (set_Password zeroConfig (null.StringFrom "secret"))).
    + reflexivity.
    + exact Hdoc.
    + exact I.
    + unfold argumentParses, ParseArg. simpl. rewrite Harg. reflexivity.
Qed.

Lemma ParseArg_params arg params :
  strvals_Parse arg = (params, None) ->
  ParseArg arg =
  let c :=
    {| Url := match as_string (params !! "url") with
              | Some v => null.StringFrom v | None => null.zero end;
       CloudID := match as_string (params !! "cloud-id") with
                  | Some v => null.StringFrom v | None => null.zero end;
       CACert := match as_string (params !! "caCertFile") with
                 | Some v => null.StringFrom v | None => null.zero end;
       User := match as_string (params !! "user") with
               | Some v => null.StringFrom v | None => null.zero end;
       Password := match as_string (params !! "password") with
                   | Some v => null.StringFrom v | None => null.zero end;
       FlushPeriod := types.zero |} in
  match as_string (params !! "flushPeriod") with
  | Some v =>
    (set_FlushPeriod c (fst (UnmarshalText types.zero (bytes_of v))),
     snd (UnmarshalText types.zero (bytes_of v)))
  | None => (c, None)
  end.
Proof.
  intros Hparse. unfold ParseArg. rewrite Hparse.
  destruct (as_string (params !! "url")), (as_string (params !! "cloud-id")),
    (as_string (params !! "caCertFile")), (as_string (params !! "user")),
    (as_string (params !! "password")), (as_string (params !! "flushPeriod"));
    simpl; try reflexivity;
    destruct (UnmarshalText types.zero _) as [d [err|]]; reflexivity.
Qed.

(** A [flushPeriod] that is missing from the parsed argument, or whose value
    is not a string, is not read: no error, and no flush period. *)
Lemma ParseArg_flushPeriod_not_string arg params :
  strvals_Parse arg = (params, None) ->
  as_string (params !! "flushPeriod") = None ->
  snd (ParseArg arg) = None /\ FlushPeriod (fst (ParseArg arg)) = types.zero.
Proof.
  intros Hparse Hkey. rewrite (ParseArg_params _ _ Hparse), Hkey. split; reflexivity.
Qed.

(** C5 (amended).  Let the parser accept the argument and give the key
    [flushPeriod] the string [v].  If the library reads [v] as the duration
    [d], then [ParseArg] returns no error and the flush period [d], and so
    does [GetConsolidatedConfig] whenever the layers before the inline one
    raise no error.  If the library rejects [v], then
    [GetConsolidatedConfig] returns an error and the configuration that the
    same document and environment give without an inline argument: the
    accumulator of the earlier layers, with the library's error when those
    layers raised none. *)
Theorem inline_flush_period (arg : string) (params : gmap string value) (v : string) :
  arg <> "" ->
  strvals_Parse arg = (params, None) ->
  params !! "flushPeriod" = Some (VString v) ->
  (forall d,
     UnmarshalText types.zero (bytes_of v) = (types.NullDurationFrom d, None) ->
     snd (ParseArg arg) = None /\
     FlushPeriod (fst (ParseArg arg)) = types.NullDurationFrom d /\
     forall jsonRawConf env acc,
       GetConsolidatedConfig jsonRawConf env "" = (acc, None) ->
       snd (GetConsolidatedConfig jsonRawConf env arg) = None /\
       FlushPeriod (fst (GetConsolidatedConfig jsonRawConf env arg))
         = types.NullDurationFrom d) /\
  (forall d err,
     UnmarshalText types.zero (bytes_of v) = (d, Some err) ->
     forall jsonRawConf env,
       snd (GetConsolidatedConfig jsonRawConf env arg) <> None /\
       fst (GetConsolidatedConfig jsonRawConf env arg)
         = fst (GetConsolidatedConfig jsonRawConf env "") /\
       forall acc,
         GetConsolidatedConfig jsonRawConf env "" = (acc, None) ->
         GetConsolidatedConfig jsonRawConf env arg = (acc, Some err)).
Proof.
  intros Hne Hparse Hkey.
  apply String.eqb_neq in Hne.
  pose proof (ParseArg_params _ _ Hparse) as HP.
  rewrite Hkey in HP; simpl in HP.
  split.
  - intros d Hd. rewrite Hd in HP; simpl in HP.
    rewrite HP; simpl. split; [reflexivity|]. split; [reflexivity|].
    intros j env acc Hacc.
    rewrite GetConsolidatedConfig_no_argument in Hacc.
    rewrite GetConsolidatedConfig_layers, Hacc. simpl.
    unfold inlineLayer. rewrite Hne, HP. simpl.
    split; reflexivity.
  - intros d err Hd j env. rewrite Hd in HP; simpl in HP.
    rewrite GetConsolidatedConfig_no_argument, GetConsolidatedConfig_layers.
    destruct (documentLayer NewConfig j >>= (fun result => environmentLayer result env))
      as [acc [e|]]; simpl.
    + split; [discriminate|]. split; [reflexivity|]. intros acc' [=].
    + unfold inlineLayer. rewrite Hne, HP. simpl.
      split; [discriminate|]. split; [reflexivity|]. intros acc' [= ->]. reflexivity.
Qed.

(** C6 (amended).  Let the layers before the environment leave the
    accumulator [acc] without an error, and let the flush period variable be
    absent or readable.  Then the environment layer raises no error and
    replaces each of the five string fields by the valid string of its
    variable when the variable is set and leaves it as in [acc] otherwise;
    the flush period is what the library reads from the text of
    [K6_ELASTICSEARCH_FLUSH_PERIOD] when that is set and is left as in [acc]
    otherwise.  The flush period of [acc] is the one of the document when
    the document has a valid one, and the default of one second
    otherwise. *)
Theorem environment_overrides
    (jsonRawConf : RawMessage) (env : gmap string string) (acc : Config) :
  GetConsolidatedConfig jsonRawConf ∅ "" = (acc, None) ->
  flushPeriodReads acc env ->
  GetConsolidatedConfig jsonRawConf env "" =
  ({| Url := match env !! "K6_ELASTICSEARCH_URL" with
             | Some url => null.NewString url true
             | None => Url acc
             end;
      CloudID := match env !! "K6_ELASTICSEARCH_CLOUD_ID" with
                 | Some cloudId => null.NewString cloudId true
                 | None => CloudID acc
                 end;
      CACert := match env !! "K6_ELASTICSEARCH_CA_CERT_FILE" with
                | Some ca => null.NewString ca true
                | None => CACert acc
                end;
      User := match env !! "K6_ELASTICSEARCH_USER" with
              | Some user => null.NewString user true
              | None => User acc
              end;
      Password := match env !! "K6_ELASTICSEARCH_PASSWORD" with
                  | Some password => null.NewString password true
                  | None => Password acc
                  end;
      FlushPeriod := match env !! "K6_ELASTICSEARCH_FLUSH_PERIOD" with
                     | Some text => fst (UnmarshalText (FlushPeriod acc) (bytes_of text))
                     | None => FlushPeriod acc
                     end |}, None) /\
  FlushPeriod acc =
  match jsonRawConf with
  | Some data =>
    let jsonConf := fst (json_Unmarshal data zeroConfig) in
    if types.Valid (FlushPeriod jsonConf) then FlushPeriod jsonConf
    else types.NullDurationFrom (1 * time.Second)
  | None => types.NullDurationFrom (1 * time.Second)
  end.
Proof.
  intros Hacc Henv.
  rewrite GetConsolidatedConfig_document_only in Hacc.
  split.
  - rewrite GetConsolidatedConfig_no_argument, Hacc. simpl.
    rewrite (environmentLayer_reads _ _ Henv). reflexivity.
  - unfold documentLayer in Hacc. destruct jsonRawConf as [data|].
    + destruct (json_Unmarshal data zeroConfig) as [jsonConf [err|]]; [discriminate|].
      injection Hacc as <-. rewrite Apply_fields. reflexivity.
    + injection Hacc as <-. reflexivity.
Qed.

(** C9.  Let the parser accept the argument.  If its result has none of
    the six keys that [ParseArg] reads, [ParseArg] returns the zero
    configuration, in which no field is set, and no error.  More generally,
    two accepted arguments whose results agree on the six keys give the same
    configuration and the same error: the other keys have no effect. *)
Theorem unrecognized_keys_ignored (arg : string) (params : gmap string value) :
  strvals_Parse arg = (params, None) ->
  (Forall (fun k => params !! k = None) recognizedKeys ->
   ParseArg arg = (zeroConfig, None)) /\
  (forall arg' params',
     strvals_Parse arg' = (params', None) ->
     Forall (fun k => params' !! k = params !! k) recognizedKeys ->
     ParseArg arg' = ParseArg arg).
Proof.
  intros Hparse. split.
  - intros Hnone. rewrite (ParseArg_params _ _ Hparse).
    unfold recognizedKeys in Hnone.
    repeat match goal with
           | H : Forall _ (_ :: _) |- _ => apply Forall_cons in H as [-> H]
           end.
    reflexivity.
  - intros arg' params' Hparse' Hsame.
    rewrite (ParseArg_params _ _ Hparse), (ParseArg_params _ _ Hparse').
    unfold recognizedKeys in Hsame.
    repeat match goal with
           | H : Forall _ (_ :: _) |- _ => apply Forall_cons in H as [-> H]
           end.
    reflexivity.
Qed.

(** C10.  The flush period variable is read before the five string
    variables.  When [K6_ELASTICSEARCH_FLUSH_PERIOD] is set to a text that
    the library rejects, [GetConsolidatedConfig] returns an error, and the
    five string fields of the configuration it returns are those that the
    same document gives with the empty environment and no inline argument:
    no string variable of the environment has been applied.  When the
    document layer raised no error and left [acc], the result is [acc] with
    the flush period as the library left it, and the library's error. *)
Theorem flush_period_error_first
    (jsonRawConf : RawMessage) (env : gmap string string) (arg text : string) :
  env !! "K6_ELASTICSEARCH_FLUSH_PERIOD" = Some text ->
  (forall d, snd (UnmarshalText d (bytes_of text)) <> None) ->
  snd (GetConsolidatedConfig jsonRawConf env arg) <> None /\
  Url (fst (GetConsolidatedConfig jsonRawConf env arg))
    = Url (fst (GetConsolidatedConfig jsonRawConf ∅ "")) /\
  CloudID (fst (GetConsolidatedConfig jsonRawConf env arg))
    = CloudID (fst (GetConsolidatedConfig jsonRawConf ∅ "")) /\
  CACert (fst (GetConsolidatedConfig jsonRawConf env arg))
    = CACert (fst (GetConsolidatedConfig jsonRawConf ∅ "")) /\
  User (fst (GetConsolidatedConfig jsonRawConf env arg))
    = User (fst (GetConsolidatedConfig jsonRawConf ∅ "")) /\
  Password (fst (GetConsolidatedConfig jsonRawConf env arg))
    = Password (fst (GetConsolidatedConfig jsonRawConf ∅ "")) /\
  forall acc,
    GetConsolidatedConfig jsonRawConf ∅ "" = (acc, None) ->
    exists err,
      snd (UnmarshalText (FlushPeriod acc) (bytes_of text)) = Some err /\
      GetConsolidatedConfig jsonRawConf env arg =
      (set_FlushPeriod acc (fst (UnmarshalText (FlushPeriod acc) (bytes_of text))),
       Some err).
Proof.
  intros Henv Hbad.
  rewrite GetConsolidatedConfig_document_only, GetConsolidatedConfig_layers.
  destruct (documentLayer NewConfig jsonRawConf) as [acc [e|]]; simpl.
  - split; [discriminate|]. do 5 (split; [reflexivity|]). intros acc' [=].
  - specialize (Hbad (FlushPeriod acc)).
    destruct (UnmarshalText (FlushPeriod acc) (bytes_of text)) as [d [err|]] eqn:Htext;
      [|now contradiction Hbad].
    rewrite (environmentLayer_fails _ _ _ _ _ Henv Htext). simpl.
    split; [discriminate|]. do 5 (split; [reflexivity|]).
    intros acc' [= <-]. exists err. rewrite Htext. split; reflexivity.
Qed.

End Resolution.

(** ** The theorems on the reference instance *)

Section Reference.
#[local] Existing Instance RefLibs.

Lemma layers_precedence_witness :
  GetConsolidatedConfig (Some (bytes_of exampleDocument)) exampleEnv "password=secret" =
  ({| Url := null.NewString "http://doc:9200" true;
      CloudID := null.NewString "" false;
      CACert := null.NewString "" false;
      User := null.NewString "envuser" true;
      Password := null.NewString "secret" true;
      FlushPeriod := types.NewNullDuration 1000000000 true |}, None) /\
  GetConsolidatedConfig (Some (bytes_of flushDocument)) envTwoMinutes "user=inline" =
  ({| Url := null.NewString "http://env:9200" true;
      CloudID := null.NewString "" false;
      CACert := null.NewString "" false;
      User := null.NewString "inline" true;
      Password := null.NewString "" false;
      FlushPeriod := types.NewNullDuration 120000000000 true |}, None).
Proof.
  assert (Hdoc : json_Unmarshal (bytes_of exampleDocument) zeroConfig
                 = (set_Url zeroConfig (null.StringFrom "http://doc:9200"), None))
    by (vm_compute; reflexivity).
  assert (Harg : strvals_Parse "password=secret"
                 = ({[ "password" := VString "secret" ]}, None))
    by (vm_compute; reflexivity).
  destruct (layers_precedence Hdoc Harg) as [Hgen Hex].
  split; [exact Hex|].
  rewrite (Hgen (Some (bytes_of flushDocument)) envTwoMinutes "user=inline"
             (set_FlushPeriod zeroConfig (types.NullDurationFrom (30 * time.Second)))
             (set_User zeroConfig (null.StringFrom "inline")));
    vm_compute; reflexivity.
Defined.

Lemma malformed_document_returns_defaults_witness :
  GetConsolidatedConfig (Some (bytes_of truncatedDocument)) exampleEnv "password=secret"
  = (NewConfig, Some "json: invalid document").
Proof.
  apply (malformed_document_returns_defaults (Libs := RefLibs)
           (bytes_of truncatedDocument) zeroConfig "json: invalid document").
  vm_compute; reflexivity.
Defined.

Lemma inline_flush_period_witness :
  (ParseArg "flushPeriod=5s"
     = (set_FlushPeriod zeroConfig (types.NewNullDuration (5 * time.Second) true), None) /\
   snd (GetConsolidatedConfig None exampleEnv "flushPeriod=5s") = None /\
   FlushPeriod (fst (GetConsolidatedConfig None exampleEnv "flushPeriod=5s"))
     = types.NewNullDuration (5 * time.Second) true) /\
  GetConsolidatedConfig (Some (bytes_of exampleDocument)) exampleEnv
    "url=http://arg:9200,flushPeriod=notaduration"
  = ({| Url := null.NewString "http://doc:9200" true;
        CloudID := null.NewString "" false;
        CACert := null.NewString "" false;
        User := null.NewString "envuser" true;
        Password := null.NewString "" false;
        FlushPeriod := types.NewNullDuration 1000000000 true |},
     Some "time: invalid duration").
Proof.
  split.
  - assert (Hne : "flushPeriod=5s" <> "") by discriminate.
    assert (Hparse : strvals_Parse "flushPeriod=5s"
                     = ({[ "flushPeriod" := VString "5s" ]}, None))
      by (vm_compute; reflexivity).
    assert (Hkey : ({[ "flushPeriod" := VString "5s" ]} : gmap string value)
                     !! "flushPeriod" = Some (VString "5s"))
      by (vm_compute; reflexivity).
    destruct (inline_flush_period _ _ _ Hne Hparse Hkey) as [Hgood _].
    assert (Hd : UnmarshalText types.zero (bytes_of "5s")
                 = (types.NullDurationFrom (5 * time.Second), None))
      by (vm_compute; reflexivity).
    destruct (Hgood _ Hd) as [Herr [Hfp Hres]].
    split; [vm_compute; reflexivity|].
    apply (Hres None exampleEnv (environmentResult NewConfig exampleEnv)).
    vm_compute; reflexivity.
  - assert (Hne : "url=http://arg:9200,flushPeriod=notaduration" <> "") by discriminate.
    assert (Hparse : strvals_Parse "url=http://arg:9200,flushPeriod=notaduration"
                     = ({[ "url" := VString "http://arg:9200";
                           "flushPeriod" := VString "notaduration" ]}, None))
      by (vm_compute; reflexivity).
    assert (Hkey : ({[ "url" := VString "http://arg:9200";
                       "flushPeriod" := VString "notaduration" ]} : gmap string value)
                     !! "flushPeriod" = Some (VString "notaduration"))
      by (vm_compute; reflexivity).
    destruct (inline_flush_period _ _ _ Hne Hparse Hkey) as [_ Hbad].
    assert (Hd : UnmarshalText types.zero (bytes_of "notaduration")
                 = (types.zero, Some "time: invalid duration"))
      by (vm_compute; reflexivity).
    destruct (Hbad _ _ Hd (Some (bytes_of exampleDocument)) exampleEnv) as [_ [_ Hres]].
    apply Hres. vm_compute; reflexivity.
Defined.

Lemma environment_overrides_witness :
  GetConsolidatedConfig (Some (bytes_of flushDocument)) envTwoMinutes ""
  = ({| Url := null.NewString "http://env:9200" true;
        CloudID := null.NewString "" false;
        CACert := null.NewString "" false;
        User := null.NewString "" false;
        Password := null.NewString "" false;
        FlushPeriod := types.NewNullDuration (2 * time.Minute) true |}, None) /\
  FlushPeriod (fst (GetConsolidatedConfig (Some (bytes_of flushDocument)) ∅ ""))
  = types.NewNullDuration (30 * time.Second) true.
Proof.
  pose (acc := set_FlushPeriod NewConfig (types.NullDurationFrom (30 * time.Second))).
  assert (Hacc : GetConsolidatedConfig (Some (bytes_of flushDocument)) ∅ "" = (acc, None))
    by (vm_compute; reflexivity).
  assert (Henv : flushPeriodReads acc envTwoMinutes) by (vm_compute; reflexivity).
  destruct (environment_overrides _ _ _ Hacc Henv) as [Hres Hfp].
  split.
  - rewrite Hres. vm_compute; reflexivity.
  - rewrite Hacc. vm_compute; reflexivity.
Defined.

Lemma unrecognized_keys_ignored_witness :
  ParseArg "index=k6,retries=3" = (zeroConfig, None) /\
  ParseArg "user=u,index=k6" = ParseArg "user=u".
Proof.
  split.
  - assert (Hparse : strvals_Parse "index=k6,retries=3"
                     = ({[ "index" := VString "k6"; "retries" := VInt 3 ]}, None))
      by (vm_compute; reflexivity).
    apply (unrecognized_keys_ignored _ _ Hparse).
    repeat constructor.
  - assert (Hparse : strvals_Parse "user=u" = ({[ "user" := VString "u" ]}, None))
      by (vm_compute; reflexivity).
    assert (Hparse' : strvals_Parse "user=u,index=k6"
                      = ({[ "user" := VString "u"; "index" := VString "k6" ]}, None))
      by (vm_compute; reflexivity).
    apply (proj2 (unrecognized_keys_ignored _ _ Hparse) _ _ Hparse').
    repeat constructor.
Defined.

Lemma flush_period_error_first_witness :
  GetConsolidatedConfig None envBadFlushPeriod "user=inline"
  = (NewConfig, Some "time: invalid duration").
Proof.
  assert (Henv : envBadFlushPeriod !! "K6_ELASTICSEARCH_FLUSH_PERIOD" = Some "notaduration")
    by (vm_compute; reflexivity).
  assert (Hbad : forall d, snd (UnmarshalText d (bytes_of "notaduration")) <> None)
    by (intros d; vm_compute; discriminate).
  destruct (flush_period_error_first None envBadFlushPeriod "user=inline"
              "notaduration" Henv Hbad) as (_ & _ & _ & _ & _ & _ & Hres).
  destruct (Hres NewConfig) as (err & Herr & ->); [vm_compute; reflexivity|].
  vm_compute in Herr. injection Herr as <-. vm_compute; reflexivity.
Defined.

(** C6, as stated, fails.  The flush period variable holds a text that is
    not a duration and [K6_ELASTICSEARCH_URL] is set: the resolution returns
    an error and the default url, not the url of the environment. *)
Lemma environment_overrides_counterexample :
  envBadFlushPeriod !! "K6_ELASTICSEARCH_URL" = Some "http://env:9200" /\
  Url (fst (GetConsolidatedConfig None envBadFlushPeriod ""))
    <> null.NewString "http://env:9200" true.
Proof. split; [vm_compute; reflexivity|vm_compute; discriminate]. Qed.

(** C8, as stated, fails.  The empty document that is not nil is not
    skipped: it is handed to the decoder, which rejects the empty text, and
    the resolution returns that error. *)
Lemma empty_document_counterexample :
  snd (GetConsolidatedConfig (Some []) ∅ "") <> None.
Proof. vm_compute; discriminate. Qed.

(** C5, as stated, fails.  The parser accepts [flushPeriod=+0] and the text
    [+0] is a duration, zero, but the parser stores the value as an integer:
    the type assertion to a string fails, the key is skipped, and the flush
    period stays the default of one second.  Likewise [true] is not a
    duration, but [flushPeriod=true] stores a boolean and raises no
    error. *)
Lemma inline_flush_period_counterexample :
  (strvals_Parse "flushPeriod=+0" = ({[ "flushPeriod" := VInt 0 ]}, None) /\
   UnmarshalText types.zero (bytes_of "+0") = (types.NewNullDuration 0 true, None) /\
   GetConsolidatedConfig None ∅ "flushPeriod=+0" = (NewConfig, None) /\
   FlushPeriod (fst (GetConsolidatedConfig None ∅ "flushPeriod=+0"))
     <> types.NewNullDuration 0 true) /\
  (strvals_Parse "flushPeriod=true" = ({[ "flushPeriod" := VBool true ]}, None) /\
   snd (UnmarshalText types.zero (bytes_of "true")) <> None /\
   GetConsolidatedConfig None ∅ "flushPeriod=true" = (NewConfig, None)).
Proof.
  split.
  - split; [vm_compute; reflexivity|]. split; [vm_compute; reflexivity|].
    split; [vm_compute; reflexivity|]. vm_compute; discriminate.
  - split; [vm_compute; reflexivity|]. split; [vm_compute; discriminate|].
    vm_compute; reflexivity.
Qed.

End Reference.

(** ** Laws of the merge *)

Section MergeLaws.

(** Merging two layers one after the other onto a base is merging their
    merge: [Apply] is associative. *)
Theorem Apply_assoc (a b c : Config) :
  Apply (Apply a b) c = Apply a (Apply b c).
Proof.
  rewrite !Apply_fields; simpl.
  f_equal;
    match goal with
    | |- context [null.Valid ?x] => destruct (null.Valid x) eqn:E; rewrite ?E; reflexivity
    | |- context [types.Valid ?x] => destruct (types.Valid x) eqn:E; rewrite ?E; reflexivity
    end.
Qed.

(** Merging the same layer a second time changes nothing, and a
    configuration merged onto itself is itself. *)
Theorem Apply_twice (base applied : Config) :
  Apply (Apply base applied) applied = Apply base applied /\
  Apply applied applied = applied.
Proof.
  split.
  - rewrite !Apply_fields; simpl.
    f_equal;
      match goal with
      | |- context [null.Valid ?x] => destruct (null.Valid x); reflexivity
      | |- context [types.Valid ?x] => destruct (types.Valid x); reflexivity
      end.
  - rewrite Apply_fields. destruct applied; simpl.
    f_equal;
      match goal with
      | |- context [null.Valid ?x] => destruct (null.Valid x); reflexivity
      | |- context [types.Valid ?x] => destruct (types.Valid x); reflexivity
      end.
Qed.

(** A field of the merge is valid exactly when it is valid in [base] or in
    [applied]: the merge never turns a valid field into an invalid one. *)
Theorem Apply_valid (base applied : Config) :
  null.Valid (Url (Apply base applied))
    = null.Valid (Url base) || null.Valid (Url applied) /\
  null.Valid (CloudID (Apply base applied))
    = null.Valid (CloudID base) || null.Valid (CloudID applied) /\
  null.Valid (CACert (Apply base applied))
    = null.Valid (CACert base) || null.Valid (CACert applied) /\
  null.Valid (User (Apply base applied))
    = null.Valid (User base) || null.Valid (User applied) /\
  null.Valid (Password (Apply base applied))
    = null.Valid (Password base) || null.Valid (Password applied) /\
  types.Valid (FlushPeriod (Apply base applied))
    = types.Valid (FlushPeriod base) || types.Valid (FlushPeriod applied).
Proof.
  rewrite Apply_fields; simpl.
  repeat split;
    match goal with
    | |- context [if ?b then _ else _] => destruct b eqn:E; rewrite ?E, ?orb_true_r, ?orb_false_r; reflexivity
    end.
Qed.

(** A configuration whose six fields are all valid replaces the base
    entirely. *)
Theorem Apply_all_valid (base applied : Config) :
  null.Valid (Url applied) = true ->
  null.Valid (CloudID applied) = true ->
  null.Valid (CACert applied) = true ->
  null.Valid (User applied) = true ->
  null.Valid (Password applied) = true ->
  types.Valid (FlushPeriod applied) = true ->
  Apply base applied = applied.
Proof.
  intros H1 H2 H3 H4 H5 H6.
  rewrite Apply_fields, H1, H2, H3, H4, H5, H6.
  destruct applied; reflexivity.
Qed.

Lemma Apply_all_valid_witness : Apply NewConfig fullConfig = fullConfig.
Proof. apply (Apply_all_valid NewConfig fullConfig); reflexivity. Defined.

End MergeLaws.

(** ** Laws of the resolution *)

Section ResolutionLaws.
Context `{Libs : GoLibs}.

Lemma inlineLayer_empty result : inlineLayer result "" = (result, None).
Proof. reflexivity. Qed.

Lemma inlineLayer_fst_on_error result arg :
  snd (inlineLayer result arg) <> None -> fst (inlineLayer result arg) = result.
Proof.
  unfold inlineLayer. destruct (String.eqb arg ""); [reflexivity|].
  destruct (ParseArg arg) as [argConf [err|]]; [reflexivity|].
  simpl. intros H. now contradiction H.
Qed.

(** When [strvals.Parse] accepts the argument, the five string fields of
    the result of [ParseArg] are read off the parsed map: the valid string of
    the key when its value is a string, the zero value otherwise.  This holds
    also when the flush period is rejected and [ParseArg] returns an error:
    the configuration it returns with the error carries these fields. *)
Theorem ParseArg_string_fields (arg : string) (params : gmap string value) :
  strvals_Parse arg = (params, None) ->
  Url (fst (ParseArg arg))
    = match as_string (params !! "url") with
      | Some v => null.NewString v true
      | None => null.NewString "" false
      end /\
  CloudID (fst (ParseArg arg))
    = match as_string (params !! "cloud-id") with
      | Some v => null.NewString v true
      | None => null.NewString "" false
      end /\
  CACert (fst (ParseArg arg))
    = match as_string (params !! "caCertFile") with
      | Some v => null.NewString v true
      | None => null.NewString "" false
      end /\
  User (fst (ParseArg arg))
    = match as_string (params !! "user") with
      | Some v => null.NewString v true
      | None => null.NewString "" false
      end /\
  Password (fst (ParseArg arg))
    = match as_string (params !! "password") with
      | Some v => null.NewString v true
      | None => null.NewString "" false
      end.
Proof.
  intros Hparse. rewrite (ParseArg_params _ _ Hparse).
  destruct (as_string (params !! "flushPeriod")); simpl; repeat split.
Qed.

(** A recognized key whose parsed value is not a string (an integer, a
    boolean, nil, a map, a list) counts as a missing key: two accepted
    arguments whose maps hold the same strings under the six keys give the
    same configuration and the same error. *)
Theorem ParseArg_reads_strings_only
    (arg arg' : string) (params params' : gmap string value) :
  strvals_Parse arg = (params, None) ->
  strvals_Parse arg' = (params', None) ->
  Forall (fun k => as_string (params' !! k) = as_string (params !! k)) recognizedKeys ->
  ParseArg arg' = ParseArg arg.
Proof.
  intros Hparse Hparse' Hsame.
  rewrite (ParseArg_params _ _ Hparse), (ParseArg_params _ _ Hparse').
  unfold recognizedKeys in Hsame.
  repeat match goal with
         | H : Forall _ (_ :: _) |- _ => apply Forall_cons in H as [-> H]
         end.
  reflexivity.
Qed.

(** An argument that [strvals.Parse] rejects: [ParseArg] returns the zero
    configuration with the parser's error, whatever map the parser returns
    beside it.  [GetConsolidatedConfig] then returns an error and the
    configuration that the same document and environment give without an
    inline argument, with the parser's error when the earlier layers raised
    none. *)
Theorem rejected_argument
    (arg : string) (params : gmap string value) (err : error) :
  arg <> "" ->
  strvals_Parse arg = (params, Some err) ->
  ParseArg arg = (zeroConfig, Some err) /\
  forall jsonRawConf env,
    snd (GetConsolidatedConfig jsonRawConf env arg) <> None /\
    fst (GetConsolidatedConfig jsonRawConf env arg)
      = fst (GetConsolidatedConfig jsonRawConf env "") /\
    forall acc,
      GetConsolidatedConfig jsonRawConf env "" = (acc, None) ->
      GetConsolidatedConfig jsonRawConf env arg = (acc, Some err).
Proof.
  intros Hne Hparse. apply String.eqb_neq in Hne.
  assert (HP : ParseArg arg = (zeroConfig, Some err)).
  { unfold ParseArg. rewrite Hparse. reflexivity. }
  split; [exact HP|].
  intros j env.
  rewrite GetConsolidatedConfig_no_argument, GetConsolidatedConfig_layers.
  destruct (documentLayer NewConfig j >>= (fun result => environmentLayer result env))
    as [acc [e|]]; simpl.
  - split; [discriminate|]. split; [reflexivity|]. intros acc' [=].
  - unfold inlineLayer. rewrite Hne, HP.
    split; [discriminate|]. split; [reflexivity|]. intros acc' [= ->]. reflexivity.
Qed.

(** Whenever [GetConsolidatedConfig] returns an error, the configuration
    beside it holds nothing of the inline argument: it is the configuration
    returned for the same document and environment with the empty
    argument. *)
Theorem failure_drops_inline_argument
    (jsonRawConf : RawMessage) (env : gmap string string) (arg : string) :
  snd (GetConsolidatedConfig jsonRawConf env arg) <> None ->
  fst (GetConsolidatedConfig jsonRawConf env arg)
    = fst (GetConsolidatedConfig jsonRawConf env "").
Proof.
  rewrite GetConsolidatedConfig_no_argument, GetConsolidatedConfig_layers.
  destruct (documentLayer NewConfig jsonRawConf
              >>= (fun result => environmentLayer result env)) as [acc [e|]]; simpl.
  - reflexivity.
  - apply inlineLayer_fst_on_error.
Qed.

(** The resolution succeeds exactly when it succeeds without the inline
    argument and the argument is empty or [ParseArg] accepts it. *)
Theorem success_iff
    (jsonRawConf : RawMessage) (env : gmap string string) (arg : string) :
  snd (GetConsolidatedConfig jsonRawConf env arg) = None <->
  snd (GetConsolidatedConfig jsonRawConf env "") = None /\
  (arg = "" \/ snd (ParseArg arg) = None).
Proof.
  rewrite GetConsolidatedConfig_no_argument, GetConsolidatedConfig_layers.
  destruct (documentLayer NewConfig jsonRawConf
              >>= (fun result => environmentLayer result env)) as [acc [e|]]; simpl.
  - split; [discriminate|]. intros [H _]. discriminate.
  - unfold inlineLayer. destruct (String.eqb_spec arg "") as [->|Hne].
    + split; auto.
    + destruct (ParseArg arg) as [argConf [err|]]; simpl.
      * split; [discriminate|]. intros [_ [H|H]]; [contradiction|discriminate].
      * split; auto.
Qed.

Lemma documentLayer_keeps_defaults jsonRawConf :
  null.Valid (Url (fst (documentLayer NewConfig jsonRawConf))) = true /\
  types.Valid (FlushPeriod (fst (documentLayer NewConfig jsonRawConf))) = true.
Proof.
  unfold documentLayer. destruct jsonRawConf as [data|]; [|split; reflexivity].
  destruct (json_Unmarshal data zeroConfig) as [jsonConf [err|]]; [split; reflexivity|].
  simpl. rewrite Apply_fields; simpl.
  destruct (null.Valid (Url jsonConf)) eqn:E1, (types.Valid (FlushPeriod jsonConf)) eqn:E2;
    split; auto.
Qed.

Lemma environmentLayer_Url_valid acc env :
  null.Valid (Url acc) = true ->
  null.Valid (Url (fst (environmentLayer acc env))) = true.
Proof.
  intros Hacc. unfold environmentLayer, environmentFlushPeriod.
  destruct (env !! "K6_ELASTICSEARCH_FLUSH_PERIOD") as [text|].
  - destruct (UnmarshalText _ _) as [d [err|]]; simpl; [exact Hacc|].
    unfold environmentStrings.
    destruct (env !! "K6_ELASTICSEARCH_URL"), (env !! "K6_ELASTICSEARCH_CLOUD_ID"),
      (env !! "K6_ELASTICSEARCH_CA_CERT_FILE"), (env !! "K6_ELASTICSEARCH_USER"),
      (env !! "K6_ELASTICSEARCH_PASSWORD"); simpl; auto.
  - simpl. unfold environmentStrings.
    destruct (env !! "K6_ELASTICSEARCH_URL"), (env !! "K6_ELASTICSEARCH_CLOUD_ID"),
      (env !! "K6_ELASTICSEARCH_CA_CERT_FILE"), (env !! "K6_ELASTICSEARCH_USER"),
      (env !! "K6_ELASTICSEARCH_PASSWORD"); simpl; auto.
Qed.

Lemma environmentLayer_without_flush_period acc env :
  env !! "K6_ELASTICSEARCH_FLUSH_PERIOD" = None ->
  snd (environmentLayer acc env) = None /\
  FlushPeriod (fst (environmentLayer acc env)) = FlushPeriod acc.
Proof.
  intros Henv. unfold environmentLayer, environmentFlushPeriod. rewrite Henv. simpl.
  unfold environmentStrings.
  destruct (env !! "K6_ELASTICSEARCH_URL"), (env !! "K6_ELASTICSEARCH_CLOUD_ID"),
    (env !! "K6_ELASTICSEARCH_CA_CERT_FILE"), (env !! "K6_ELASTICSEARCH_USER"),
    (env !! "K6_ELASTICSEARCH_PASSWORD"); simpl; auto.
Qed.

Lemma inlineLayer_keeps_valid result arg :
  (null.Valid (Url result) = true ->
   null.Valid (Url (fst (inlineLayer result arg))) = true) /\
  (null.Valid (CloudID result) = true ->
   null.Valid (CloudID (fst (inlineLayer result arg))) = true) /\
  (null.Valid (CACert result) = true ->
   null.Valid (CACert (fst (inlineLayer result arg))) = true) /\
  (null.Valid (User result) = true ->
   null.Valid (User (fst (inlineLayer result arg))) = true) /\
  (null.Valid (Password result) = true ->
   null.Valid (Password (fst (inlineLayer result arg))) = true) /\
  (types.Valid (FlushPeriod result) = true ->
   types.Valid (FlushPeriod (fst (inlineLayer result arg))) = true).
Proof.
  unfold inlineLayer. destruct (String.eqb arg ""); [simpl; tauto|].
  destruct (ParseArg arg) as [argConf [err|]]; [simpl; tauto|].
  simpl. rewrite Apply_fields; simpl.
  repeat split; intros H;
    match goal with
    | |- context [if ?b then _ else _] => destruct b eqn:E; auto
    end.
Qed.

(** The url of the configuration that [GetConsolidatedConfig] returns is
    always valid, with or without an error: no layer can unset the default
    endpoint, it can only replace it. *)
Theorem url_always_valid
    (jsonRawConf : RawMessage) (env : gmap string string) (arg : string) :
  null.Valid (Url (fst (GetConsolidatedConfig jsonRawConf env arg))) = true.
Proof.
  rewrite GetConsolidatedConfig_layers.
  pose proof (documentLayer_keeps_defaults jsonRawConf) as [Hdoc _].
  destruct (documentLayer NewConfig jsonRawConf) as [acc [e|]]; simpl in *; [exact Hdoc|].
  pose proof (environmentLayer_Url_valid acc env Hdoc) as Henv.
  destruct (environmentLayer acc env) as [acc' [e|]]; simpl in *; [exact Henv|].
  apply inlineLayer_keeps_valid, Henv.
Qed.

(** When the environment does not set [K6_ELASTICSEARCH_FLUSH_PERIOD], the
    flush period of the configuration that [GetConsolidatedConfig] returns
    is valid, with or without an error: neither the document nor the inline
    argument can unset the default. *)
Theorem flush_period_valid_without_variable
    (jsonRawConf : RawMessage) (env : gmap string string) (arg : string) :
  env !! "K6_ELASTICSEARCH_FLUSH_PERIOD" = None ->
  types.Valid (FlushPeriod (fst (GetConsolidatedConfig jsonRawConf env arg))) = true.
Proof.
  intros Hnone. rewrite GetConsolidatedConfig_layers.
  pose proof (documentLayer_keeps_defaults jsonRawConf) as [_ Hdoc].
  destruct (documentLayer NewConfig jsonRawConf) as [acc [e|]]; simpl in *; [exact Hdoc|].
  pose proof (environmentLayer_without_flush_period acc env Hnone) as [Herr Hfp].
  destruct (environmentLayer acc env) as [acc' [e|]]; simpl in *; [discriminate|].
  apply inlineLayer_keeps_valid. rewrite Hfp. exact Hdoc.
Qed.

(** The inline argument never unsets a field: a field that is valid in the
    configuration returned with the empty argument is valid in the
    configuration returned with any argument. *)
Theorem inline_argument_keeps_valid
    (jsonRawConf : RawMessage) (env : gmap string string) (arg : string) :
  (null.Valid (Url (fst (GetConsolidatedConfig jsonRawConf env ""))) = true ->
   null.Valid (Url (fst (GetConsolidatedConfig jsonRawConf env arg))) = true) /\
  (null.Valid (CloudID (fst (GetConsolidatedConfig jsonRawConf env ""))) = true ->
   null.Valid (CloudID (fst (GetConsolidatedConfig jsonRawConf env arg))) = true) /\
  (null.Valid (CACert (fst (GetConsolidatedConfig jsonRawConf env ""))) = true ->
   null.Valid (CACert (fst (GetConsolidatedConfig jsonRawConf env arg))) = true) /\
  (null.Valid (User (fst (GetConsolidatedConfig jsonRawConf env ""))) = true ->
   null.Valid (User (fst (GetConsolidatedConfig jsonRawConf env arg))) = true) /\
  (null.Valid (Password (fst (GetConsolidatedConfig jsonRawConf env ""))) = true ->
   null.Valid (Password (fst (GetConsolidatedConfig jsonRawConf env arg))) = true) /\
  (types.Valid (FlushPeriod (fst (GetConsolidatedConfig jsonRawConf env ""))) = true ->
   types.Valid (FlushPeriod (fst (GetConsolidatedConfig jsonRawConf env arg))) = true).
Proof.
  rewrite GetConsolidatedConfig_no_argument, GetConsolidatedConfig_layers.
  destruct (documentLayer NewConfig jsonRawConf
              >>= (fun result => environmentLayer result env)) as [acc [e|]]; simpl.
  - tauto.
  - apply inlineLayer_keeps_valid.
Qed.

(** The five string variables of the environment cannot fail: when
    [K6_ELASTICSEARCH_FLUSH_PERIOD] is not set, the error that
    [GetConsolidatedConfig] returns (or its absence) is the one it returns
    with the empty environment. *)
Theorem string_variables_raise_no_error
    (jsonRawConf : RawMessage) (env : gmap string string) (arg : string) :
  env !! "K6_ELASTICSEARCH_FLUSH_PERIOD" = None ->
  snd (GetConsolidatedConfig jsonRawConf env arg)
    = snd (GetConsolidatedConfig jsonRawConf ∅ arg).
Proof.
  intros Hnone. rewrite !GetConsolidatedConfig_layers.
  destruct (documentLayer NewConfig jsonRawConf) as [acc [e|]]; simpl; [reflexivity|].
  pose proof (environmentLayer_without_flush_period acc env Hnone) as [Herr _].
  destruct (environmentLayer acc env) as [acc' [e|]]; simpl in *; [discriminate|].
  unfold inlineLayer. destruct (String.eqb arg ""); [reflexivity|].
  destruct (ParseArg arg) as [argConf [err|]]; reflexivity.
Qed.

(** Only the six variables of [envVariables] are read: two environments
    that agree on them give the same configuration and the same error. *)
Theorem other_variables_ignored
    (jsonRawConf : RawMessage) (env env' : gmap string string) (arg : string) :
  Forall (fun k => env' !! k = env !! k) envVariables ->
  GetConsolidatedConfig jsonRawConf env' arg = GetConsolidatedConfig jsonRawConf env arg.
Proof.
  intros Hsame. unfold GetConsolidatedConfig, envVariables in *.
  repeat match goal with
         | H : Forall _ (_ :: _) |- _ => apply Forall_cons in H as [-> H]
         end.
  reflexivity.
Qed.

(** A document that decodes without an error to a configuration with no
    valid field (the empty object, say) gives the result of the nil
    document. *)
Theorem document_without_fields
    (data : bytes) (jsonConf : Config) (env : gmap string string) (arg : string) :
  json_Unmarshal data zeroConfig = (jsonConf, None) ->
  null.Valid (Url jsonConf) = false ->
  null.Valid (CloudID jsonConf) = false ->
  null.Valid (CACert jsonConf) = false ->
  null.Valid (User jsonConf) = false ->
  null.Valid (Password jsonConf) = false ->
  types.Valid (FlushPeriod jsonConf) = false ->
  GetConsolidatedConfig (Some data) env arg = GetConsolidatedConfig None env arg.
Proof.
  intros Hdoc H1 H2 H3 H4 H5 H6. rewrite !GetConsolidatedConfig_layers.
  unfold documentLayer. rewrite Hdoc.
  rewrite Apply_fields, H1, H2, H3, H4, H5, H6. reflexivity.
Qed.

(** An accepted argument that gives no string to any of the six keys has
    the effect of the empty argument. *)
Theorem argument_without_fields
    (jsonRawConf : RawMessage) (env : gmap string string)
    (arg : string) (params : gmap string value) :
  strvals_Parse arg = (params, None) ->
  Forall (fun k => as_string (params !! k) = None) recognizedKeys ->
  GetConsolidatedConfig jsonRawConf env arg = GetConsolidatedConfig jsonRawConf env "".
Proof.
  intros Hparse Hnone.
  assert (HP : ParseArg arg = (zeroConfig, None)).
  { rewrite (ParseArg_params _ _ Hparse). unfold recognizedKeys in Hnone.
    repeat match goal with
           | H : Forall _ (_ :: _) |- _ => apply Forall_cons in H as [-> H]
           end.
    reflexivity. }
  rewrite !GetConsolidatedConfig_layers.
  destruct (documentLayer NewConfig jsonRawConf
              >>= (fun result => environmentLayer result env)) as [acc [e|]]; simpl;
    [reflexivity|].
  unfold inlineLayer. destruct (String.eqb arg ""); [reflexivity|].
  rewrite HP, Apply_zeroConfig. reflexivity.
Qed.

End ResolutionLaws.

(** ** The laws on the reference instance *)

Section ReferenceLaws.
#[local] Existing Instance RefLibs.

Lemma ParseArg_string_fields_witness :
  User (fst (ParseArg "user=u,cloud-id=7,flushPeriod=notaduration"))
    = null.NewString "u" true /\
  CloudID (fst (ParseArg "user=u,cloud-id=7,flushPeriod=notaduration"))
    = null.NewString "" false /\
  snd (ParseArg "user=u,cloud-id=7,flushPeriod=notaduration")
    = Some "time: invalid duration".
Proof.
  assert (Hparse : strvals_Parse "user=u,cloud-id=7,flushPeriod=notaduration"
                   = ({[ "user" := VString "u"; "cloud-id" := VInt 7;
                         "flushPeriod" := VString "notaduration" ]}, None))
    by (vm_compute; reflexivity).
  destruct (ParseArg_string_fields _ _ Hparse) as (_ & Hcloud & _ & Huser & _).
  split; [exact Huser|]. split; [exact Hcloud|]. vm_compute; reflexivity.
Defined.

Lemma ParseArg_reads_strings_only_witness :
  ParseArg "user=7,url=http://x:1,password=true" = ParseArg "url=http://x:1".
Proof.
  assert (Hparse : strvals_Parse "url=http://x:1" = ({[ "url" := VString "http://x:1" ]}, None))
    by (vm_compute; reflexivity).
  assert (Hparse' : strvals_Parse "user=7,url=http://x:1,password=true"
                    = ({[ "user" := VInt 7; "url" := VString "http://x:1";
                          "password" := VBool true ]}, None))
    by (vm_compute; reflexivity).
  apply (ParseArg_reads_strings_only _ _ _ _ Hparse Hparse').
  repeat constructor.
Defined.

Lemma rejected_argument_witness :
  ParseArg "user" = (zeroConfig, Some "key has no value") /\
  GetConsolidatedConfig (Some (bytes_of exampleDocument)) exampleEnv "user"
  = ({| Url := null.NewString "http://doc:9200" true;
        CloudID := null.NewString "" false;
        CACert := null.NewString "" false;
        User := null.NewString "envuser" true;
        Password := null.NewString "" false;
        FlushPeriod := types.NewNullDuration 1000000000 true |},
     Some "key has no value").
Proof.
  assert (Hne : "user" <> "") by discriminate.
  assert (Hparse : strvals_Parse "user" = (∅, Some "key has no value"))
    by (vm_compute; reflexivity).
  destruct (rejected_argument (Libs := RefLibs) _ _ _ Hne Hparse) as [HP Hres].
  split; [exact HP|].
  destruct (Hres (Some (bytes_of exampleDocument)) exampleEnv) as (_ & _ & Hacc).
  apply Hacc. vm_compute; reflexivity.
Defined.

Lemma failure_drops_inline_argument_witness :
  fst (GetConsolidatedConfig None envBadFlushPeriod "url=http://arg:1")
  = fst (GetConsolidatedConfig None envBadFlushPeriod "").
Proof.
  apply failure_drops_inline_argument. vm_compute; discriminate.
Defined.

Lemma flush_period_valid_without_variable_witness :
  types.Valid (FlushPeriod (fst (GetConsolidatedConfig
                                   (Some (bytes_of truncatedDocument)) exampleEnv
                                   "flushPeriod=notaduration"))) = true.
Proof.
  apply flush_period_valid_without_variable. vm_compute; reflexivity.
Defined.

Lemma inline_argument_keeps_valid_witness :
  null.Valid (User (fst (GetConsolidatedConfig None exampleEnv "user=7,url=http://x:1")))
  = true.
Proof.
  apply (inline_argument_keeps_valid None exampleEnv "user=7,url=http://x:1").
  vm_compute; reflexivity.
Defined.

Lemma string_variables_raise_no_error_witness :
  snd (GetConsolidatedConfig (Some (bytes_of exampleDocument)) envWithOthers "user")
  = snd (GetConsolidatedConfig (Some (bytes_of exampleDocument)) ∅ "user").
Proof.
  apply string_variables_raise_no_error. vm_compute; reflexivity.
Defined.

Lemma other_variables_ignored_witness :
  GetConsolidatedConfig (Some (bytes_of exampleDocument)) envWithOthers "password=secret"
  = GetConsolidatedConfig (Some (bytes_of exampleDocument)) exampleEnv "password=secret".
Proof.
  apply other_variables_ignored. repeat constructor.
Defined.

Lemma document_without_fields_witness :
  GetConsolidatedConfig (Some (bytes_of "{}")) exampleEnv "password=secret"
  = GetConsolidatedConfig None exampleEnv "password=secret".
Proof.
  apply (document_without_fields (bytes_of "{}") zeroConfig);
    vm_compute; reflexivity.
Defined.

Lemma argument_without_fields_witness :
  GetConsolidatedConfig (Some (bytes_of exampleDocument)) exampleEnv "index=k6,user=7"
  = GetConsolidatedConfig (Some (bytes_of exampleDocument)) exampleEnv "".
Proof.
  assert (Hparse : strvals_Parse "index=k6,user=7"
                   = ({[ "index" := VString "k6"; "user" := VInt 7 ]}, None))
    by (vm_compute; reflexivity).
  apply (argument_without_fields _ _ _ _ Hparse).
  repeat constructor.
Defined.

End ReferenceLaws.
